(** * authy-go: a shallow embedding of the Authy API client (authy.go)

    The client turns typed calls into HTTP requests against a fixed base
    URL and reads the provider's JSON answers back.  The Go packages it
    rests on (net/url, net/http, encoding/json, go-querystring) are not
    part of the repository: they appear here as interfaces (type classes),
    and every function of authy.go is written over them, in the order and
    with the early returns of the source. *)

From Stdlib Require Import ZArith Ascii.
From stdpp Require Import base strings list gmap pretty sorting.

Local Open Scope string_scope.
Local Open Scope Z_scope.

(** ** Errors and fallible results *)

(** A Go [error], identified with the text its [Error()] method returns.
    A nil error is [None] in an [option error]. *)
Definition error : Type := string.

(** The [(value, error)] pair of a call that yields either a value or an
    error, never both. *)
Inductive result (A : Type) : Type :=
| Ok (a : A)
| Err (e : error).
Arguments Ok {A} a.
Arguments Err {A} e.

(** [int64] values are integers; the client only prints and compares them. *)
Definition int64 : Type := Z.

(** [contains s sub]: the text [sub] occurs in [s]. *)
Definition contains (s sub : string) : Prop :=
  exists pre post : string, s = pre +:+ sub +:+ post.

(** ** fmt *)
Module fmt.

(** The verb [%d] on an integer: its decimal digits, with a leading minus
    sign when negative. *)
Definition d (n : int64) : string := pretty n.

(** The verbs [%s] and [%v] on a string: the string itself. *)
Definition s (x : string) : string := x.

(** [fmt.Errorf] builds an error whose text is the formatted string. *)
Definition Errorf (text : string) : error := text.

End fmt.

(** ** net/url *)

(** [url.Values]: a map from keys to the list of their values. *)
Abbreviation Values := (gmap string (list string)).

Class NetURL : Type := {
  URL : Type;
  (** [url.Parse] *)
  url_Parse : string -> result URL;
  (** [URL.ResolveReference], base first *)
  ResolveReference : URL -> URL -> URL;
  (** [URL.String] *)
  URL_String : URL -> string;
  (** [Values.Encode]: the form [k1=v1&k2=v2], keys and values escaped *)
  Values_Encode : Values -> string;
}.

(** ** go-querystring *)

(** [query.Values] on a struct with [url] tags. *)
Class QueryStruct (B : Type) : Type := {
  query_Values : B -> result Values;
}.

(** The [body interface{}] argument of [NewRequest] and [Post]: nil, or a
    struct that go-querystring can read. *)
Inductive Body : Type :=
| BodyNil
| BodyOf {B : Type} `{QueryStruct B} (b : B).

(** The form values of a body: none for nil, else what [query.Values]
    reads off the struct. *)
Definition Body_Values (body : Body) : result Values :=
  match body with
  | BodyNil => Ok ∅
  | BodyOf b => query_Values b
  end.

(** ** net/http *)

(** [http.Header] is a map from header names to their values; [Add]
    appends to the values of a name and [Get] returns the first one.
    (Go also puts the name in canonical case in both; names are kept as
    the source writes them.) *)
Abbreviation Header := (gmap string (list string)).

Definition Header_Add (key value : string) (h : Header) : Header :=
  <[key := (default [] (h !! key) ++ [value])%list]> h.

Definition Header_Get (key : string) (h : Header) : string :=
  match h !! key with
  | Some (v :: _) => v
  | _ => ""
  end.

(** The four headers [NewRequest] adds to a fresh request. *)
Definition standard_headers (secret : string) : Header :=
  <["X-Authy-API-Key" := [secret]]>
    (<["User-Agent" := ["authy-go-client"]]>
       (<["Accept" := ["application/json"]]>
          (<["Content-Type" := ["application/x-www-form-urlencoded"]]> ∅))).

(** An [*http.Request], with the method, URL text and body handed to
    [http.NewRequest]. *)
Record Request : Type := mkRequest {
  req_Method : string;
  req_URL : string;
  req_Body : string;
  req_Header : Header;
}.

(** What [ioutil.ReadAll] yields on a response body: the bytes read and
    the read error, if any. *)
Definition ReadCloser : Type := (string * option error)%type.

Definition ioutil_ReadAll (r : ReadCloser) : string * option error := r.

Record Response : Type := mkResponse {
  StatusCode : Z;
  resp_Body : ReadCloser;
}.

Class NetHTTP : Type := {
  (** the state of everything beyond the client: the provider, the wire *)
  Net : Type;
  (** the checks of [http.NewRequest] on the method it is handed (an
      empty one stands for GET) and on the URL text *)
  http_request_check : string -> string -> option error;
  (** one round trip of the transport behind [http.Client.Do] *)
  RoundTrip : Request -> Net -> result Response * Net;
}.

(** The method of a request built by net/http: an empty method means
    GET. *)
Definition default_method (method : string) : string :=
  if decide (method = "") then "GET" else method.

Section NewRequestOfHttp.
Context `{NetHTTP}.

(** [http.NewRequest]: a request with an empty header, or the error of
    the checks. *)
Definition http_NewRequest (method url body : string) : result Request :=
  match http_request_check method url with
  | Some err => Err err
  | None => Ok (mkRequest (default_method method) url body ∅)
  end.

End NewRequestOfHttp.

(** ** encoding/json *)

(** [json.Unmarshal(data, &target)]: the target after decoding (fields may
    be written even when an error is reported) and the decode error. *)
Class Unmarshal (R : Type) : Type := {
  json_Unmarshal : string -> R -> R * option error;
}.

(** ** The data model of authy.go *)

(** The package-level base of every endpoint. *)
Definition baseUrl : string := "https://api.authy.com/protected/".

Record App : Type := mkApp {
  ApiSecret : string;
  (** xml or json, json when not provided *)
  ApiFormat : string;
}.

(** The [http.Client] the client owns; only its timeout is configured, in
    seconds. *)
Record http_Client : Type := mkHttpClient {
  Timeout : Z;
}.

(** the app data returned from the app endpoint *)
Record authyAppInfo : Type := mkAuthyAppInfo {
  Name : string;
  Plan : string;
  SmsEnabled : bool;
  PhoneCallsEnabled : bool;
  AppID : int64;
  OnetouchEnabled : bool;
}.

(** embedded user data in API responses *)
Record user : Type := mkUser {
  user_ID : int64;
}.

Record status : Type := mkStatus {
  AuthyID : int64;
  Confirmed : bool;
  Registered : bool;
  status_CountryCode : Z;
  PhoneNumber : string;
  status_Email : string;
}.

Record device : Type := mkDevice {
  device_ID : int64;
  OSType : option string;
}.

(** ResponseMessage is the wrapper for the data returned by the API. *)
Record ResponseMessage : Type := mkResponseMessage {
  rm_App : authyAppInfo;
  User : user;
  Status : status;
  Device : device;
  Token : string;
  Message : string;
  Success : bool;
}.

(** [new(ResponseMessage)]: every field at its zero value. *)
Definition new_ResponseMessage : ResponseMessage :=
  mkResponseMessage (mkAuthyAppInfo "" "" false false 0 false) (mkUser 0)
    (mkStatus 0 false false 0 "" "") (mkDevice 0 None) "" "" false.

(** The narrow struct [CheckOTPToken] decodes into: this endpoint sends
    its success flag as a JSON string. *)
Record otpMessage : Type := mkOtpMessage {
  otp_Success : string;
  otp_Token : string;
}.

Definition new_otpMessage : otpMessage := mkOtpMessage "" "".

(** AuthyUser is for use when creating users: the endpoint expects at
    least the cellphone and the country code. *)
Record AuthyUser : Type := mkAuthyUser {
  Email : string;
  Cellphone : string;
  CountryCode : string;
  SendInstallLink : bool;
}.

(** [Values.Add]: append a value to those of a key. *)
Definition Values_Add (key value : string) (v : Values) : Values :=
  <[key := (default [] (v !! key) ++ [value])%list]> v.

(** What go-querystring reads off the [url] tags of [AuthyUser]:
    [user[email],omitempty], [user[cellphone]], [user[country_code]] and
    [send_install_link_via_sms,omitempty]. *)
Definition AuthyUser_Values (au : AuthyUser) : Values :=
  let v : Values := ∅ in
  let v := if decide (Email au = "") then v
           else Values_Add "user[email]" (Email au) v in
  let v := Values_Add "user[cellphone]" (Cellphone au) v in
  let v := Values_Add "user[country_code]" (CountryCode au) v in
  if SendInstallLink au
  then Values_Add "send_install_link_via_sms" "true" v
  else v.

#[global] Instance AuthyUser_QueryStruct : QueryStruct AuthyUser :=
  {| query_Values au := Ok (AuthyUser_Values au) |}.

(** ** The client *)

Section Authy.
Context `{NetURL} `{NetHTTP}.
Context `{Unmarshal ResponseMessage} `{Unmarshal otpMessage}.

(** Client for interacting with the Authy API. *)
Record Client : Type := mkClient {
  Client_http : http_Client;
  app : App;
  baseURL : URL;
}.

(** Everything a call can touch besides its result: the network, the
    requests handed to the transport so far, and the lines written with
    [log.Println]. *)
Record World : Type := mkWorld {
  net : Net;
  sent : list Request;
  logs : list string;
}.

(** The world after a round trip that sent [req] and left the network
    in state [n]. *)
Definition after_send (w : World) (req : Request) (n : Net) : World :=
  mkWorld n (sent w ++ [req])%list (logs w).

(** A call that may act on the world. *)
Definition M (A : Type) : Type := World -> A * World.

Definition ret {A : Type} (a : A) : M A := fun w => (a, w).

Definition bind {A B : Type} (m : M A) (k : A -> M B) : M B :=
  fun w => let '(a, w') := m w in k a w'.

Notation "'do' x <- m ; k" := (bind m (fun x => k))
  (at level 10, x name, m at level 100, k at level 200).

(** [c.Client.Do(req)]: the request goes to the transport, which answers
    with a response or a transport error. *)
Definition Client_Do (c : Client) (req : Request) : M (result Response) :=
  fun w =>
    let '(r, n) := RoundTrip req (net w) in
    (r, mkWorld n (sent w ++ [req])%list (logs w)).

Definition log_Println (line : string) : M unit :=
  fun w => (tt, mkWorld (net w) (sent w) (logs w ++ [line])%list).

(** NewClient returns a client to make requests to the Authy API, or nil
    ([None]) when the base URL does not parse. *)
Definition NewClient (a : App) : option Client :=
  let urlWithFormat := baseUrl +:+ "json/" in
  let urlWithFormat :=
    if decide (ApiFormat a = "xml") then baseUrl +:+ "xml/" else urlWithFormat in
  match url_Parse urlWithFormat with
  | Err _ => None
  | Ok url => Some (mkClient (mkHttpClient 20) a url)
  end.

(** NewRequest creates a new request with the given method and path, and
    marshals the given body into url encoded data. *)
Definition NewRequest (c : Client) (method relPath : string) (body : Body)
  : result Request :=
  match url_Parse relPath with
  | Err err => Err err
  | Ok rel =>
    let u := ResolveReference (baseURL c) rel in
    match Body_Values body with
    | Err err => Err err
    | Ok out =>
      match http_NewRequest method (URL_String u) (Values_Encode out) with
      | Err err => Err err
      | Ok req =>
        let h := req_Header req in
        let h := Header_Add "Content-Type" "application/x-www-form-urlencoded" h in
        let h := Header_Add "Accept" "application/json" h in
        let h := Header_Add "User-Agent" "authy-go-client" h in
        let h := Header_Add "X-Authy-API-Key" (ApiSecret (app c)) h in
        Ok (mkRequest (req_Method req) (req_URL req) (req_Body req) h)
      end
    end
  end.

(** Get makes a GET request to a relative path and reads the response
    data into the resource provided.  The resource is a pointer in the
    source: its final content is returned next to the error. *)
Definition Get {R : Type} `{Unmarshal R} (c : Client) (relPath : string)
  (resource : R) : M (R * option error) :=
  match NewRequest c "GET" relPath BodyNil with
  | Err err => ret (resource, Some err)
  | Ok req =>
    do resp <- Client_Do c req;
    match resp with
    | Err err => ret (resource, Some err)
    | Ok resp =>
      match ioutil_ReadAll (resp_Body resp) with
      | (_, Some err) => ret (resource, Some err)
      | (body, None) => ret (fst (json_Unmarshal body resource), None)
      end
    end
  end.

(** Post to the Authy API based on the path provided. *)
Definition Post {R : Type} `{Unmarshal R} (c : Client) (relPath : string)
  (body : Body) (resource : R) : M (R * option error) :=
  match NewRequest c "POST" relPath body with
  | Err err => ret (resource, Some err)
  | Ok req =>
    do resp <- Client_Do c req;
    match resp with
    | Err err => ret (resource, Some err)
    | Ok resp =>
      match ioutil_ReadAll (resp_Body resp) with
      | (_, Some err) => ret (resource, Some err)
      | (respBody, None) => ret (fst (json_Unmarshal respBody resource), None)
      end
    end
  end.

(** GetAppInfo gets the app info for the provided API secret. *)
Definition GetAppInfo (c : Client) : M (ResponseMessage * option error) :=
  do r <- Get c "app/details" new_ResponseMessage;
  let info := fst r in
  ret (info, None).

(** CreateUser creates a user: the cellphone number and the country code
    must be provided for the request to be processed. *)
Definition CreateUser (c : Client) (au : AuthyUser) : M (int64 * option error) :=
  if decide (Cellphone au = "" \/ CountryCode au = "")
  then ret (0, Some (fmt.Errorf "AUTHY: insufficient data provided to create user"))
  else
    do r <- Post c "users/new" (BodyOf au) new_ResponseMessage;
    let '(resource, err) := r in
    match err with
    | Some err => ret (0, Some err)
    | None =>
      if negb (Success resource)
      then ret (0, Some (fmt.Errorf
                  ("AUTHY: create not successful " +:+ fmt.s (Message resource))))
      else ret (user_ID (User resource), None)
    end.

(** RemoveUser removes a user from the Authy API. *)
Definition RemoveUser (c : Client) (authyUserID : int64) : M (option error) :=
  let path := "users/" +:+ fmt.d authyUserID +:+ "/remove" in
  do r <- Post c path BodyNil new_ResponseMessage;
  let '(resource, err) := r in
  match err with
  | Some err => ret (Some err)
  | None =>
    if negb (Success resource)
    then ret (Some (fmt.Errorf (fmt.s (Message resource))))
    else ret None
  end.

(** UserStatus requests the current status of the provided user ID. *)
Definition UserStatus (c : Client) (authyUserID : int64)
  : M (option ResponseMessage * option error) :=
  let path := "users/" +:+ fmt.d authyUserID +:+ "/status" in
  do r <- Get c path new_ResponseMessage;
  let '(msg, err) := r in
  match err with
  | Some err => ret (None, Some err)
  | None => ret (Some msg, None)
  end.

(** The path [SendOTPWithAction] requests: the action and its message go
    after it as written, behind [?action=] and [&action_message=]. *)
Definition SendOTPWithAction_path (authyUserID : int64)
  (action actionMessage : string) : string :=
  let path := "sms/" +:+ fmt.d authyUserID in
  if decide (action <> "")
  then
    let path := fmt.s path +:+ "?action=" +:+ fmt.s action in
    if decide (actionMessage <> "")
    then fmt.s path +:+ "&action_message=" +:+ fmt.s actionMessage
    else path
  else path.

(** SendOTPWithAction triggers an OTP to be sent to the user, with a
    custom action and message. *)
Definition SendOTPWithAction (c : Client) (authyUserID : int64)
  (action actionMessage : string) : M (ResponseMessage * option error) :=
  let path := SendOTPWithAction_path authyUserID action actionMessage in
  do r <- Get c path new_ResponseMessage;
  let '(msg, err) := r in
  match err with
  | Some err => ret (msg, Some err)
  | None => ret (msg, None)
  end.

(** SendOTP triggers an OTP to be sent to the user based on their id. *)
Definition SendOTP (c : Client) (authyUserID : int64)
  : M (ResponseMessage * option error) :=
  SendOTPWithAction c authyUserID "" "".

(** CheckOTPToken checks with the API whether the provided token is
    valid in order to grant access. *)
Definition CheckOTPToken (c : Client) (authyUserID : int64) (token : string)
  : M (bool * option error) :=
  if decide (authyUserID = 0 \/ token = "")
  then ret (false, Some (fmt.Errorf "authyUserID or token not provided"))
  else
    let path := "verify/" +:+ fmt.s token +:+ "/" +:+ fmt.d authyUserID in
    match NewRequest c "GET" path BodyNil with
    | Err err => ret (false, Some err)
    | Ok req =>
      do resp <- Client_Do c req;
      match resp with
      | Err err => ret (false, Some err)
      | Ok resp =>
        if decide (StatusCode resp <> 200)
        then ret (false, Some (fmt.Errorf "invalid token"))
        else
          match ioutil_ReadAll (resp_Body resp) with
          | (_, Some err) =>
            do _ <- log_Println "authy-go CheckOTPToken: malformed response";
            ret (false, Some err)
          | (body, None) =>
            let '(msg, err) := json_Unmarshal body new_otpMessage in
            match err with
            | Some err =>
              do _ <- log_Println
                "authy-go CheckOTPToken: error unmarshaling authy API response";
              ret (false, Some err)
            | None =>
              if decide (otp_Success msg = "true" /\ otp_Token msg = "is valid")
              then ret (true, None)
              else ret (false, None)
            end
          end
      end
    end.

(** [w'] is [w] after at most one round trip of method [method]: either
    nothing was sent and the network is as it was, or one request went
    out, with that method and the four headers of [NewRequest], and the
    network is where its round trip left it. *)
Definition at_most_one_request (c : Client) (method : string)
  (w w' : World) : Prop :=
  (sent w' = sent w /\ net w' = net w)
  \/ exists req : Request,
       sent w' = (sent w ++ [req])%list
       /\ net w' = (RoundTrip req (net w)).2
       /\ req_Method req = method
       /\ req_Header req = standard_headers (ApiSecret (app c)).

End Authy.

(** ** A test double for the Go packages

    The tests of the repository (authy_test.go) run the client against
    httpmock: canned responders instead of the provider.  [Mock] plays
    that part here, so that the functions above run on concrete inputs. *)

Module Mock.

(** *** net/url, for plain relative paths under a base that ends in a slash *)

Definition unreserved (c : ascii) : bool :=
  let n := Ascii.N_of_ascii c in
  ((48 <=? n) && (n <=? 57) || (65 <=? n) && (n <=? 90)
   || (97 <=? n) && (n <=? 122)
   || (n =? 45) || (n =? 95) || (n =? 46) || (n =? 126))%N.

Definition hexdigit (n : N) : ascii :=
  Ascii.ascii_of_N (if (n <? 10)%N then 48 + n else 55 + n)%N.

(** [url.QueryEscape] *)
Fixpoint QueryEscape (s : string) : string :=
  match s with
  | EmptyString => EmptyString
  | String c s' =>
    if unreserved c then String c (QueryEscape s')
    else if (Ascii.N_of_ascii c =? 32)%N then String "+" (QueryEscape s')
    else
      let n := Ascii.N_of_ascii c in
      String "%" (String (hexdigit (n / 16)%N)
                    (String (hexdigit (n mod 16)%N) (QueryEscape s')))
  end.

Definition key_le (x y : string * list string) : Prop :=
  String.leb x.1 y.1 = true.

#[local] Instance key_le_dec x y : Decision (key_le x y).
Proof. unfold key_le. apply _. Defined.

Definition encode_key (kv : string * list string) : list string :=
  (fun v => QueryEscape kv.1 +:+ "=" +:+ QueryEscape v) <$> kv.2.

Fixpoint join_amp (l : list string) : string :=
  match l with
  | [] => ""
  | [x] => x
  | x :: l' => x +:+ "&" +:+ join_amp l'
  end.

(** [Values.Encode]: keys in sorted order, one [key=value] per value *)
Definition Encode (v : Values) : string :=
  join_amp (mbind encode_key (merge_sort key_le (map_to_list v))).

(** A path that opens with a colon has no scheme before it and does not
    parse; every other text parses to itself. *)
Definition Parse (s : string) : result string :=
  match s with
  | String ":" _ => Err "parse: missing protocol scheme"
  | _ => Ok s
  end.

#[global] Instance url : NetURL := {|
  URL := string;
  url_Parse := Parse;
  ResolveReference base rel := base +:+ rel;
  URL_String u := u;
  Values_Encode := Encode;
|}.

(** *** net/http: the responders answer in turn *)

(** the double quote *)
Definition q : string := String (Ascii.ascii_of_nat 34) EmptyString.

(** The characters of an HTTP token: letters, digits and
    [!#$%&'*+-.^_`|~]. *)
Definition token_char (c : ascii) : bool :=
  let n := Ascii.N_of_ascii c in
  ((48 <=? n) && (n <=? 57) || (65 <=? n) && (n <=? 90)
   || (97 <=? n) && (n <=? 122)
   || (n =? 33) || (35 <=? n) && (n <=? 39) || (n =? 42) || (n =? 43)
   || (n =? 45) || (n =? 46) || (n =? 94) || (n =? 95) || (n =? 96)
   || (n =? 124) || (n =? 126))%N.

Fixpoint all_token (s : string) : bool :=
  match s with
  | EmptyString => true
  | String c s' => token_char c && all_token s'
  end.

(** A method is valid when it is a non-empty token. *)
Definition valid_method (method : string) : bool :=
  negb (bool_decide (method = "")) && all_token method.

(** [http.NewRequest] refuses a method that is not a token; the URL
    texts this double resolves always parse again. *)
Definition request_check (method url : string) : option error :=
  let method := default_method method in
  if valid_method method then None
  else Some ("net/http: invalid method " +:+ q +:+ method +:+ q).

#[global] Instance http : NetHTTP := {|
  Net := list (result Response);
  http_request_check := request_check;
  RoundTrip req n :=
    match n with
    | r :: n' => (r, n')
    | [] => (Err "no responder found", [])
    end;
|}.

(** *** encoding/json: the bodies the responders serve *)

(** [{"success":"true","token":"is valid"}] *)
Definition body_valid : string :=
  "{" +:+ q +:+ "success" +:+ q +:+ ":" +:+ q +:+ "true" +:+ q +:+ ","
   +:+ q +:+ "token" +:+ q +:+ ":" +:+ q +:+ "is valid" +:+ q +:+ "}".

(** [{"success":"true","token":"is invalid"}] *)
Definition body_invalid : string :=
  "{" +:+ q +:+ "success" +:+ q +:+ ":" +:+ q +:+ "true" +:+ q +:+ ","
   +:+ q +:+ "token" +:+ q +:+ ":" +:+ q +:+ "is invalid" +:+ q +:+ "}".

(** [{"success":true,"user":{"id":12345}}] *)
Definition body_created : string :=
  "{" +:+ q +:+ "success" +:+ q +:+ ":true," +:+ q +:+ "user" +:+ q
   +:+ ":{" +:+ q +:+ "id" +:+ q +:+ ":12345}}".

(** [{"success":false,"message":"User not found."}] *)
Definition body_rejected : string :=
  "{" +:+ q +:+ "success" +:+ q +:+ ":false," +:+ q +:+ "message" +:+ q
   +:+ ":" +:+ q +:+ "User not found." +:+ q +:+ "}".

(** [{"success":false, }], which is not JSON *)
Definition body_malformed : string :=
  "{" +:+ q +:+ "success" +:+ q +:+ ":false, }".

Definition set_User_Success (id : int64) (r : ResponseMessage) : ResponseMessage :=
  mkResponseMessage (rm_App r) (mkUser id) (Status r) (Device r) (Token r)
    (Message r) true.

Definition set_Message_Failure (m : string) (r : ResponseMessage) : ResponseMessage :=
  mkResponseMessage (rm_App r) (User r) (Status r) (Device r) (Token r) m false.

#[global] Instance json_ResponseMessage : Unmarshal ResponseMessage := {|
  json_Unmarshal data r :=
    if decide (data = body_created) then (set_User_Success 12345 r, None)
    else if decide (data = body_rejected)
    then (set_Message_Failure "User not found." r, None)
    else (r, Some "invalid character in JSON input");
|}.

#[global] Instance json_otpMessage : Unmarshal otpMessage := {|
  json_Unmarshal data m :=
    if decide (data = body_valid) then (mkOtpMessage "true" "is valid", None)
    else if decide (data = body_invalid)
    then (mkOtpMessage "true" "is invalid", None)
    else (m, Some "invalid character in JSON input");
|}.

(** *** The fixtures of authy_test.go *)

Definition app : App := mkApp "verysecret" "".

Definition client : Client :=
  mkClient (mkHttpClient 20) app "https://api.authy.com/protected/json/".

(** the body of TestNewRequest: one field, tagged [hello] *)
Record helloBody : Type := mkHello { Hello : string }.

#[global] Instance helloBody_QueryStruct : QueryStruct helloBody :=
  {| query_Values b := Ok (Values_Add "hello" (Hello b) ∅) |}.

(** a world whose responders are [rs], with nothing sent or logged yet *)
Definition world (rs : list (result Response)) : World := mkWorld rs [] [].

End Mock.

(** ** Properties of the client *)

Section AuthyFacts.
Context `{NetURL} `{NetHTTP}.
Context `{Unmarshal ResponseMessage} `{Unmarshal otpMessage}.

Lemma Client_Do_run (c : Client) (req : Request) (w : World)
    (r : result Response) (n : Net) :
  RoundTrip req (net w) = (r, n) ->
  Client_Do c req w = (r, after_send w req n).
Proof. intros Hrt. unfold Client_Do. rewrite Hrt. reflexivity. Qed.

(** *** The transport: Get and Post *)

(** Every way out of [Get], by the step that decides it. *)
Lemma Get_unbuilt {R : Type} `{Unmarshal R} (c : Client) (relPath : string)
    (resource : R) (w : World) (err : error) :
  NewRequest c "GET" relPath BodyNil = Err err ->
  Get c relPath resource w = ((resource, Some err), w).
Proof. intros Hreq. unfold Get. rewrite Hreq. reflexivity. Qed.

Lemma Get_transport_error {R : Type} `{Unmarshal R} (c : Client)
    (relPath : string) (resource : R) (w : World) (req : Request)
    (err : error) (n : Net) :
  NewRequest c "GET" relPath BodyNil = Ok req ->
  RoundTrip req (net w) = (Err err, n) ->
  Get c relPath resource w = ((resource, Some err), after_send w req n).
Proof.
  intros Hreq Hrt. unfold Get, bind. rewrite Hreq.
  rewrite (Client_Do_run c req w _ _ Hrt). reflexivity.
Qed.

Lemma Get_read_error {R : Type} `{Unmarshal R} (c : Client)
    (relPath : string) (resource : R) (w : World) (req : Request)
    (resp : Response) (n : Net) (data : string) (err : error) :
  NewRequest c "GET" relPath BodyNil = Ok req ->
  RoundTrip req (net w) = (Ok resp, n) ->
  resp_Body resp = (data, Some err) ->
  Get c relPath resource w = ((resource, Some err), after_send w req n).
Proof.
  intros Hreq Hrt Hbody. unfold Get, bind. rewrite Hreq.
  rewrite (Client_Do_run c req w _ _ Hrt).
  unfold ioutil_ReadAll. rewrite Hbody. reflexivity.
Qed.

Lemma Get_read {R : Type} `{Unmarshal R} (c : Client)
    (relPath : string) (resource : R) (w : World) (req : Request)
    (resp : Response) (n : Net) (data : string) :
  NewRequest c "GET" relPath BodyNil = Ok req ->
  RoundTrip req (net w) = (Ok resp, n) ->
  resp_Body resp = (data, None) ->
  Get c relPath resource w
  = (((json_Unmarshal data resource).1, None), after_send w req n).
Proof.
  intros Hreq Hrt Hbody. unfold Get, bind. rewrite Hreq.
  rewrite (Client_Do_run c req w _ _ Hrt).
  unfold ioutil_ReadAll. rewrite Hbody. reflexivity.
Qed.

Lemma Post_read {R : Type} `{Unmarshal R} (c : Client)
    (relPath : string) (body : Body) (resource : R) (w : World)
    (req : Request) (resp : Response) (n : Net) (data : string) :
  NewRequest c "POST" relPath body = Ok req ->
  RoundTrip req (net w) = (Ok resp, n) ->
  resp_Body resp = (data, None) ->
  Post c relPath body resource w
  = (((json_Unmarshal data resource).1, None), after_send w req n).
Proof.
  intros Hreq Hrt Hbody. unfold Post, bind. rewrite Hreq.
  rewrite (Client_Do_run c req w _ _ Hrt).
  unfold ioutil_ReadAll. rewrite Hbody. reflexivity.
Qed.

(** An error from [Get] means the decoder never ran: the resource is as
    the caller passed it. *)
Lemma Get_error_keeps_resource {R : Type} `{Unmarshal R} (c : Client)
    (relPath : string) (resource : R) (w : World) (err : error) :
  (Get c relPath resource w).1.2 = Some err ->
  (Get c relPath resource w).1.1 = resource.
Proof.
  unfold Get, bind.
  destruct (NewRequest c "GET" relPath BodyNil) as [req|e]; [|done].
  destruct (Client_Do c req w) as [[resp|e] w']; [|done].
  destruct (ioutil_ReadAll (resp_Body resp)) as [data [e|]]; [done|].
  simpl. discriminate.
Qed.

(** C6. When the request is built, the round trip succeeds and the body
    is read without error, [Get] and [Post] return a nil error whatever
    the decoder reports ([derr] is any decode outcome, an error
    included), and the resource holds what the decoder left in it. *)
Theorem Get_Post_swallow_decode_errors {R : Type} `{Unmarshal R}
    (c : Client) (relPath : string) (resource target : R) (w : World)
    (resp : Response) (n : Net) (data : string) (derr : option error) :
  resp_Body resp = (data, None) ->
  json_Unmarshal data resource = (target, derr) ->
  (forall req : Request,
     NewRequest c "GET" relPath BodyNil = Ok req ->
     RoundTrip req (net w) = (Ok resp, n) ->
     Get c relPath resource w = ((target, None), after_send w req n))
  /\
  (forall (body : Body) (req : Request),
     NewRequest c "POST" relPath body = Ok req ->
     RoundTrip req (net w) = (Ok resp, n) ->
     Post c relPath body resource w = ((target, None), after_send w req n)).
Proof.
  intros Hbody Hdec. split.
  - intros req Hreq Hrt.
    rewrite (Get_read c relPath resource w req resp n data Hreq Hrt Hbody).
    rewrite Hdec. reflexivity.
  - intros body req Hreq Hrt.
    rewrite (Post_read c relPath body resource w req resp n data Hreq Hrt Hbody).
    rewrite Hdec. reflexivity.
Qed.

(** *** GetAppInfo *)

(** C10. [GetAppInfo] always returns a nil error.  When the inner [Get]
    fails (the request is not built, the transport fails, or the body
    cannot be read) the envelope returned is the zero-valued one. *)
Theorem GetAppInfo_discards_error (c : Client) (w : World) :
  (GetAppInfo c w).1.2 = None
  /\ (forall err : error,
        (Get c "app/details" new_ResponseMessage w).1.2 = Some err ->
        (GetAppInfo c w).1.1 = new_ResponseMessage)
  /\ (forall (req : Request) (err : error) (n : Net),
        NewRequest c "GET" "app/details" BodyNil = Ok req ->
        RoundTrip req (net w) = (Err err, n) ->
        GetAppInfo c w = ((new_ResponseMessage, None), after_send w req n))
  /\ (forall (req : Request) (resp : Response) (n : Net) (data : string)
             (err : error),
        NewRequest c "GET" "app/details" BodyNil = Ok req ->
        RoundTrip req (net w) = (Ok resp, n) ->
        resp_Body resp = (data, Some err) ->
        GetAppInfo c w = ((new_ResponseMessage, None), after_send w req n)).
Proof.
  unfold GetAppInfo, bind. repeat split.
  - destruct (Get c "app/details" new_ResponseMessage w) as [r w']. reflexivity.
  - intros err Herr.
    pose proof (Get_error_keeps_resource c "app/details" new_ResponseMessage w
                  err Herr) as Hkeep.
    destruct (Get c "app/details" new_ResponseMessage w) as [r w']. exact Hkeep.
  - intros req err n Hreq Hrt.
    rewrite (Get_transport_error c _ _ w req err n Hreq Hrt). reflexivity.
  - intros req resp n data err Hreq Hrt Hbody.
    rewrite (Get_read_error c _ _ w req resp n data err Hreq Hrt Hbody).
    reflexivity.
Qed.

(** *** CreateUser *)

(** C2. With an empty cellphone or an empty country code [CreateUser]
    returns 0 and a non-nil error at once: the world (network, requests
    sent, log) is the one it was called in. *)
Theorem CreateUser_insufficient_data (c : Client) (au : AuthyUser) (w : World) :
  Cellphone au = "" \/ CountryCode au = "" ->
  CreateUser c au w
  = ((0, Some "AUTHY: insufficient data provided to create user"), w).
Proof.
  intros Hempty. unfold CreateUser.
  destruct (decide (Cellphone au = "" \/ CountryCode au = "")) as [_|Hno].
  - reflexivity.
  - contradiction.
Qed.

(** *** CheckOTPToken *)

(** C4. With a zero user id or an empty token [CheckOTPToken] returns
    false and a non-nil error at once, and issues no request: the world
    is the one it was called in. *)
Theorem CheckOTPToken_not_provided (c : Client) (authyUserID : int64)
    (token : string) (w : World) :
  authyUserID = 0 \/ token = "" ->
  CheckOTPToken c authyUserID token w
  = ((false, Some "authyUserID or token not provided"), w).
Proof.
  intros Hempty. unfold CheckOTPToken.
  destruct (decide (authyUserID = 0 \/ token = "")) as [_|Hno].
  - reflexivity.
  - contradiction.
Qed.

Lemma append_empty_r (s : string) : s +:+ "" = s.
Proof.
  induction s as [|a s IH]; [reflexivity|].
  change (String a (s +:+ "") = String a s). by f_equal.
Qed.

Lemma contains_suffix (pre sub : string) : contains (pre +:+ sub) sub.
Proof. exists pre, "". by rewrite append_empty_r. Qed.

(** C1. [CheckOTPToken] with a non-zero id and a non-empty token, once
    the request is built and the transport has answered with [resp]:
    a status other than 200 gives false with an error, whatever the
    body; on 200 with a body that decodes into [msg] the error is nil
    and the verdict is true exactly when [msg] has success "true" and
    token "is valid"; on 200 with a body that fails to decode the result
    is false with the decode error. *)
Theorem CheckOTPToken_verdict (c : Client) (authyUserID : int64)
    (token : string) (w : World) (req : Request) (resp : Response) (n : Net) :
  authyUserID <> 0 ->
  token <> "" ->
  NewRequest c "GET" ("verify/" +:+ token +:+ "/" +:+ fmt.d authyUserID) BodyNil
  = Ok req ->
  RoundTrip req (net w) = (Ok resp, n) ->
  let r := (CheckOTPToken c authyUserID token w).1 in
  (StatusCode resp <> 200 -> r = (false, Some "invalid token"))
  /\ (forall (data : string) (msg : otpMessage),
        StatusCode resp = 200 ->
        resp_Body resp = (data, None) ->
        json_Unmarshal data new_otpMessage = (msg, None) ->
        r.2 = None
        /\ (r.1 = true <-> otp_Success msg = "true" /\ otp_Token msg = "is valid"))
  /\ (forall (data : string) (msg : otpMessage) (err : error),
        StatusCode resp = 200 ->
        resp_Body resp = (data, None) ->
        json_Unmarshal data new_otpMessage = (msg, Some err) ->
        r = (false, Some err)).
Proof.
  intros Hid Htoken Hreq Hrt. cbv zeta.
  unfold CheckOTPToken, bind, fmt.s.
  destruct (decide (authyUserID = 0 \/ token = "")) as [[?|?]|_]; [done..|].
  rewrite Hreq, (Client_Do_run c req w _ _ Hrt).
  split; [|split].
  - intros Hstatus. by destruct (decide (StatusCode resp <> 200)).
  - intros data msg Hstatus Hbody Hdec.
    destruct (decide (StatusCode resp <> 200)); [done|].
    unfold ioutil_ReadAll. rewrite Hbody, Hdec.
    destruct (decide (otp_Success msg = "true" /\ otp_Token msg = "is valid"))
      as [Hvalid|Hinvalid]; simpl.
    + split; [reflexivity|]. split; [intros _; exact Hvalid | reflexivity].
    + split; [reflexivity|]. split; [discriminate | intros Hvalid; contradiction].
  - intros data msg err Hstatus Hbody Hdec.
    destruct (decide (StatusCode resp <> 200)); [done|].
    unfold ioutil_ReadAll. rewrite Hbody, Hdec. reflexivity.
Qed.

(** C3. [CreateUser] with a cellphone and a country code, once the POST
    has gone through and its body has been read: [envelope] is what the
    decoder leaves in a fresh [ResponseMessage].  With [Success] true
    the result is the envelope's user id and a nil error; with
    [Success] false it is 0 and an error whose text ends with (so,
    contains) the envelope's [Message]. *)
Theorem CreateUser_envelope (c : Client) (au : AuthyUser) (w : World)
    (req : Request) (resp : Response) (n : Net) (data : string) :
  Cellphone au <> "" ->
  CountryCode au <> "" ->
  NewRequest c "POST" "users/new" (BodyOf au) = Ok req ->
  RoundTrip req (net w) = (Ok resp, n) ->
  resp_Body resp = (data, None) ->
  let envelope := (json_Unmarshal data new_ResponseMessage).1 in
  let r := (CreateUser c au w).1 in
  (Success envelope = true -> r = (user_ID (User envelope), None))
  /\ (Success envelope = false ->
      r = (0, Some ("AUTHY: create not successful " +:+ Message envelope))
      /\ exists err : error, r.2 = Some err /\ contains err (Message envelope)).
Proof.
  intros Hphone Hcountry Hreq Hrt Hbody. cbv zeta.
  unfold CreateUser, bind.
  destruct (decide (Cellphone au = "" \/ CountryCode au = "")) as [[?|?]|_];
    [done..|].
  rewrite (Post_read c _ _ new_ResponseMessage w req resp n data Hreq Hrt Hbody).
  split; intros Hsuccess; rewrite Hsuccess; simpl.
  - reflexivity.
  - split; [reflexivity|].
    eexists. split; [reflexivity|]. apply contains_suffix.
Qed.

(** *** RemoveUser *)

(** C8. [RemoveUser], once the POST has gone through and its body has
    been read: with [Success] false in the decoded envelope the error
    returned has the envelope's [Message] as its text; with [Success]
    true the error is nil. *)
Theorem RemoveUser_envelope (c : Client) (authyUserID : int64) (w : World)
    (req : Request) (resp : Response) (n : Net) (data : string) :
  NewRequest c "POST" ("users/" +:+ fmt.d authyUserID +:+ "/remove") BodyNil
  = Ok req ->
  RoundTrip req (net w) = (Ok resp, n) ->
  resp_Body resp = (data, None) ->
  let envelope := (json_Unmarshal data new_ResponseMessage).1 in
  let r := (RemoveUser c authyUserID w).1 in
  (Success envelope = false -> r = Some (Message envelope))
  /\ (Success envelope = true -> r = None).
Proof.
  intros Hreq Hrt Hbody. cbv zeta. unfold RemoveUser, bind.
  rewrite (Post_read c _ _ new_ResponseMessage w req resp n data Hreq Hrt Hbody).
  split; intros Hsuccess; rewrite Hsuccess; reflexivity.
Qed.

(** *** NewClient *)

(** C5. Where net/url parses the two base URLs, [NewClient] gives a
    client on the JSON base URL for an empty format and for every format
    other than "xml", and a client on the XML base URL for the format
    "xml". *)
Theorem NewClient_baseURL (a : App) (json xml : URL) :
  url_Parse "https://api.authy.com/protected/json/" = Ok json ->
  url_Parse "https://api.authy.com/protected/xml/" = Ok xml ->
  (ApiFormat a = "" -> NewClient a = Some (mkClient (mkHttpClient 20) a json))
  /\ (ApiFormat a = "xml" -> NewClient a = Some (mkClient (mkHttpClient 20) a xml))
  /\ (ApiFormat a <> "xml" -> NewClient a = Some (mkClient (mkHttpClient 20) a json)).
Proof.
  intros Hjson Hxml. unfold NewClient, baseUrl.
  change ("https://api.authy.com/protected/" +:+ "json/")
    with "https://api.authy.com/protected/json/".
  change ("https://api.authy.com/protected/" +:+ "xml/")
    with "https://api.authy.com/protected/xml/".
  repeat split.
  - intros Hformat. rewrite Hformat.
    destruct (decide ("" = "xml")); [done|]. by rewrite Hjson.
  - intros Hformat.
    destruct (decide (ApiFormat a = "xml")); [|done]. by rewrite Hxml.
  - intros Hformat.
    destruct (decide (ApiFormat a = "xml")); [done|]. by rewrite Hjson.
Qed.

(** *** SendOTPWithAction *)

(** C7, as the code has it.  [SendOTPWithAction] is a [Get] on the path
    built from its arguments.  With an empty action the path is exactly
    [sms/{id}], whatever the action message; a non-empty action is
    appended as written behind [?action=]; a non-empty action message is
    appended as written behind [&action_message=] when the action is
    non-empty too. *)
Theorem SendOTPWithAction_request_path (c : Client) (authyUserID : int64)
    (action actionMessage : string) (w : World) :
  let path := SendOTPWithAction_path authyUserID action actionMessage in
  SendOTPWithAction c authyUserID action actionMessage w
  = Get c path new_ResponseMessage w
  /\ (action = "" -> path = "sms/" +:+ fmt.d authyUserID)
  /\ (action <> "" -> actionMessage = "" ->
      path = ("sms/" +:+ fmt.d authyUserID) +:+ "?action=" +:+ action)
  /\ (action <> "" -> actionMessage <> "" ->
      path = (("sms/" +:+ fmt.d authyUserID) +:+ "?action=" +:+ action)
             +:+ "&action_message=" +:+ actionMessage).
Proof.
  cbv zeta. split; [|unfold SendOTPWithAction_path, fmt.s; repeat split].
  - unfold SendOTPWithAction, bind.
    destruct (Get c _ new_ResponseMessage w) as [[msg [err|]] w']; reflexivity.
  - intros Haction. by destruct (decide (action <> "")).
  - intros Haction Hmessage.
    destruct (decide (action <> "")); [|done].
    by destruct (decide (actionMessage <> "")).
  - intros Haction Hmessage.
    destruct (decide (action <> "")); [|done].
    by destruct (decide (actionMessage <> "")).
Qed.

(** *** NewRequest *)

Lemma default_method_given (method : string) :
  method <> "" -> default_method method = method.
Proof. intros Hgiven. unfold default_method. by destruct (decide (method = "")). Qed.

Lemma Header_Add_fresh (key value : string) (h : Header) :
  h !! key = None -> Header_Add key value h = <[key := [value]]> h.
Proof. intros Hfresh. unfold Header_Add. by rewrite Hfresh. Qed.

Lemma Values_Add_fresh (key value : string) (v : Values) :
  v !! key = None -> Values_Add key value v = <[key := [value]]> v.
Proof. intros Hfresh. unfold Values_Add. by rewrite Hfresh. Qed.

Lemma standard_headers_added (secret : string) :
  Header_Add "X-Authy-API-Key" secret
    (Header_Add "User-Agent" "authy-go-client"
       (Header_Add "Accept" "application/json"
          (Header_Add "Content-Type" "application/x-www-form-urlencoded" ∅)))
  = standard_headers secret.
Proof.
  unfold standard_headers.
  rewrite (Header_Add_fresh "Content-Type") by done.
  rewrite (Header_Add_fresh "Accept") by done.
  rewrite (Header_Add_fresh "User-Agent") by done.
  rewrite (Header_Add_fresh "X-Authy-API-Key") by done.
  reflexivity.
Qed.

Lemma standard_headers_Get (secret : string) :
  Header_Get "Content-Type" (standard_headers secret)
  = "application/x-www-form-urlencoded"
  /\ Header_Get "Accept" (standard_headers secret) = "application/json"
  /\ Header_Get "User-Agent" (standard_headers secret) = "authy-go-client"
  /\ Header_Get "X-Authy-API-Key" (standard_headers secret) = secret.
Proof. unfold Header_Get, standard_headers. by simplify_map_eq. Qed.

(** The form values of an [AuthyUser], key by key: the two fields tagged
    [omitempty] are left out when empty, the other two are always there. *)
Lemma AuthyUser_Values_lookup (au : AuthyUser) :
  AuthyUser_Values au !! "user[cellphone]" = Some [Cellphone au]
  /\ AuthyUser_Values au !! "user[country_code]" = Some [CountryCode au]
  /\ AuthyUser_Values au !! "user[email]"
     = (if decide (Email au = "") then None else Some [Email au])
  /\ AuthyUser_Values au !! "send_install_link_via_sms"
     = (if SendInstallLink au then Some ["true"] else None).
Proof.
  unfold AuthyUser_Values, Values_Add.
  destruct (decide (Email au = "")), (SendInstallLink au);
    by simplify_map_eq.
Qed.

(** C9, as the code has it.  [NewRequest] on a relative path that
    parses to [rel], a body whose form values are [out], and a method
    and resolved URL that [http.NewRequest] accepts: the request has the
    method given (GET for an empty one), it goes to the text of [rel]
    resolved against the client's base URL, its body is the encoded form
    of [out], and its header holds exactly Content-Type, Accept,
    User-Agent and X-Authy-API-Key, the last with the configured API
    secret.  For an [AuthyUser] body the form values leave out the
    fields tagged [omitempty] when they are empty. *)
Theorem NewRequest_shape (c : Client) (method relPath : string) (body : Body)
    (rel : URL) (out : Values) :
  url_Parse relPath = Ok rel ->
  Body_Values body = Ok out ->
  http_request_check method (URL_String (ResolveReference (baseURL c) rel)) = None ->
  (exists req : Request,
     NewRequest c method relPath body = Ok req
     /\ req_Method req = default_method method
     /\ (method <> "" -> req_Method req = method)
     /\ req_URL req = URL_String (ResolveReference (baseURL c) rel)
     /\ req_Body req = Values_Encode out
     /\ req_Header req = standard_headers (ApiSecret (app c))
     /\ Header_Get "Content-Type" (req_Header req)
        = "application/x-www-form-urlencoded"
     /\ Header_Get "Accept" (req_Header req) = "application/json"
     /\ Header_Get "User-Agent" (req_Header req) = "authy-go-client"
     /\ Header_Get "X-Authy-API-Key" (req_Header req) = ApiSecret (app c))
  /\ (forall au : AuthyUser,
        body = BodyOf au ->
        out = AuthyUser_Values au
        /\ out !! "user[cellphone]" = Some [Cellphone au]
        /\ out !! "user[country_code]" = Some [CountryCode au]
        /\ out !! "user[email]"
           = (if decide (Email au = "") then None else Some [Email au])
        /\ out !! "send_install_link_via_sms"
           = (if SendInstallLink au then Some ["true"] else None)).
Proof.
  intros Hrel Hout Hcheck. split.
  - eexists. unfold NewRequest, http_NewRequest.
    rewrite Hrel, Hout, Hcheck. cbn [req_Header req_Method req_URL req_Body].
    rewrite standard_headers_added.
    split; [reflexivity|]. cbn [req_Header req_Method req_URL req_Body].
    pose proof (standard_headers_Get (ApiSecret (app c))) as (Hct & Hacc & Hua & Hkey).
    split; [reflexivity|]. split; [apply default_method_given|].
    repeat split; assumption.
  - intros au ->. simpl in Hout. injection Hout as <-.
    split; [reflexivity|]. apply AuthyUser_Values_lookup.
Qed.

End AuthyFacts.

(** ** The theorems on the test double

    Each lemma below runs a theorem of the previous section on the
    fixtures of authy_test.go. *)

(** TestCheckOTPToken, first case: status 200, success "true", token
    "is valid". *)
Lemma CheckOTPToken_verdict_witness :
  (1234567 <> 0 /\ "atokenforyou" <> "")
  /\ (CheckOTPToken Mock.client 1234567 "atokenforyou"
        (Mock.world [Ok (mkResponse 200 (Mock.body_valid, None))])).1
     = (true, None).
Proof.
  split; [split; discriminate|].
  edestruct (CheckOTPToken_verdict Mock.client 1234567 "atokenforyou"
               (Mock.world [Ok (mkResponse 200 (Mock.body_valid, None))]))
    as (_ & H200 & _).
  - discriminate.
  - discriminate.
  - reflexivity.
  - reflexivity.
  - destruct (H200 Mock.body_valid (mkOtpMessage "true" "is valid")
                eq_refl eq_refl eq_refl) as [Hnil Hiff].
    destruct (CheckOTPToken _ _ _ _).1 as [verdict err].
    simpl in Hnil, Hiff. rewrite Hnil. f_equal. apply Hiff. split; reflexivity.
Defined.

(** TestCreateUser, second case: no cellphone, no country code. *)
Lemma CreateUser_insufficient_data_witness :
  (Cellphone (mkAuthyUser "" "" "" false) = ""
   \/ CountryCode (mkAuthyUser "" "" "" false) = "")
  /\ CreateUser Mock.client (mkAuthyUser "" "" "" false)
       (Mock.world [Ok (mkResponse 400 (Mock.body_malformed, None))])
     = ((0, Some "AUTHY: insufficient data provided to create user"),
        Mock.world [Ok (mkResponse 400 (Mock.body_malformed, None))]).
Proof.
  split; [left; reflexivity|].
  apply CreateUser_insufficient_data. left. reflexivity.
Defined.

(** TestCheckOTPToken, third case: no id, no token. *)
Lemma CheckOTPToken_not_provided_witness :
  (0 = 0 \/ "" = "")
  /\ CheckOTPToken Mock.client 0 ""
       (Mock.world [Ok (mkResponse 401 (Mock.body_malformed, None))])
     = ((false, Some "authyUserID or token not provided"),
        Mock.world [Ok (mkResponse 401 (Mock.body_malformed, None))]).
Proof.
  split; [left; reflexivity|].
  apply CheckOTPToken_not_provided. left. reflexivity.
Defined.

(** TestCreateUser, first case: status 201, success true, user id 12345;
    and a rejection with a message. *)
Lemma CreateUser_envelope_witness :
  (Cellphone (mkAuthyUser "" "111111111" "61" false) <> ""
   /\ CountryCode (mkAuthyUser "" "111111111" "61" false) <> "")
  /\ (CreateUser Mock.client (mkAuthyUser "" "111111111" "61" false)
        (Mock.world [Ok (mkResponse 201 (Mock.body_created, None))])).1
     = (12345, None)
  /\ (CreateUser Mock.client (mkAuthyUser "" "111111111" "61" false)
        (Mock.world [Ok (mkResponse 400 (Mock.body_rejected, None))])).1
     = (0, Some "AUTHY: create not successful User not found.").
Proof.
  split; [split; discriminate|]. split.
  - edestruct (CreateUser_envelope Mock.client
                 (mkAuthyUser "" "111111111" "61" false)
                 (Mock.world [Ok (mkResponse 201 (Mock.body_created, None))]))
      as [Hcreated _];
      [discriminate | discriminate | reflexivity | reflexivity | reflexivity |].
    apply Hcreated. reflexivity.
  - edestruct (CreateUser_envelope Mock.client
                 (mkAuthyUser "" "111111111" "61" false)
                 (Mock.world [Ok (mkResponse 400 (Mock.body_rejected, None))]))
      as [_ Hrejected];
      [discriminate | discriminate | reflexivity | reflexivity | reflexivity |].
    apply Hrejected. reflexivity.
Defined.

(** A rejected removal surfaces the provider's message. *)
Lemma RemoveUser_envelope_witness :
  (RemoveUser Mock.client 12345
     (Mock.world [Ok (mkResponse 404 (Mock.body_rejected, None))])).1
  = Some "User not found."
  /\ (RemoveUser Mock.client 12345
        (Mock.world [Ok (mkResponse 200 (Mock.body_created, None))])).1
     = None.
Proof.
  split.
  - edestruct (RemoveUser_envelope Mock.client 12345
                 (Mock.world [Ok (mkResponse 404 (Mock.body_rejected, None))]))
      as [Hrejected _]; [reflexivity | reflexivity | reflexivity |].
    apply Hrejected. reflexivity.
  - edestruct (RemoveUser_envelope Mock.client 12345
                 (Mock.world [Ok (mkResponse 200 (Mock.body_created, None))]))
      as [_ Hremoved]; [reflexivity | reflexivity | reflexivity |].
    apply Hremoved. reflexivity.
Defined.

(** TestNewClient: no format, the format "xml", and another format. *)
Lemma NewClient_baseURL_witness :
  NewClient (mkApp "verysecret" "") = Some Mock.client
  /\ NewClient (mkApp "verysecret" "xml")
     = Some (mkClient (mkHttpClient 20) (mkApp "verysecret" "xml")
               "https://api.authy.com/protected/xml/")
  /\ NewClient (mkApp "verysecret" "json")
     = Some (mkClient (mkHttpClient 20) (mkApp "verysecret" "json")
               "https://api.authy.com/protected/json/").
Proof.
  split; [|split].
  - apply (proj1 (@NewClient_baseURL Mock.url (mkApp "verysecret" "")
             "https://api.authy.com/protected/json/"
             "https://api.authy.com/protected/xml/" eq_refl eq_refl)).
    reflexivity.
  - apply (proj1 (proj2 (@NewClient_baseURL Mock.url (mkApp "verysecret" "xml")
             "https://api.authy.com/protected/json/"
             "https://api.authy.com/protected/xml/" eq_refl eq_refl))).
    reflexivity.
  - apply (proj2 (proj2 (@NewClient_baseURL Mock.url (mkApp "verysecret" "json")
             "https://api.authy.com/protected/json/"
             "https://api.authy.com/protected/xml/" eq_refl eq_refl))).
    discriminate.
Defined.

(** A body that is not JSON: the decoder reports an error, [Get] and
    [Post] return nil and leave the resource as it was. *)
Lemma Get_Post_swallow_decode_errors_witness :
  (json_Unmarshal Mock.body_malformed new_ResponseMessage).2
  = Some "invalid character in JSON input"
  /\ (Get Mock.client "sms/12334566" new_ResponseMessage
        (Mock.world [Ok (mkResponse 401 (Mock.body_malformed, None))])).1
     = (new_ResponseMessage, None)
  /\ (Post Mock.client "users/new"
        (BodyOf (mkAuthyUser "" "111111111" "111" false)) new_ResponseMessage
        (Mock.world [Ok (mkResponse 400 (Mock.body_malformed, None))])).1
     = (new_ResponseMessage, None).
Proof.
  split; [reflexivity|]. split.
  - edestruct (Get_Post_swallow_decode_errors Mock.client "sms/12334566"
                 new_ResponseMessage new_ResponseMessage
                 (Mock.world [Ok (mkResponse 401 (Mock.body_malformed, None))])
                 (mkResponse 401 (Mock.body_malformed, None)) []
                 Mock.body_malformed (Some "invalid character in JSON input"))
      as [Hget _]; [reflexivity | reflexivity |].
    erewrite Hget; reflexivity.
  - edestruct (Get_Post_swallow_decode_errors Mock.client "users/new"
                 new_ResponseMessage new_ResponseMessage
                 (Mock.world [Ok (mkResponse 400 (Mock.body_malformed, None))])
                 (mkResponse 400 (Mock.body_malformed, None)) []
                 Mock.body_malformed (Some "invalid character in JSON input"))
      as [_ Hpost]; [reflexivity | reflexivity |].
    erewrite Hpost; reflexivity.
Defined.

(** An action message without an action leaves no trace in the request:
    the path is [sms/1] and the request goes to that URL. *)
Lemma SendOTPWithAction_message_without_action :
  "hello" <> ""
  /\ SendOTPWithAction_path 1 "" "hello" = "sms/1"
  /\ req_URL <$>
       sent (SendOTPWithAction Mock.client 1 "" "hello"
               (Mock.world [Ok (mkResponse 200 (Mock.body_created, None))])).2
     = ["https://api.authy.com/protected/json/sms/1"].
Proof. split; [discriminate|]. split; reflexivity. Defined.

(** An action with a message, an action alone, and neither. *)
Lemma SendOTPWithAction_request_path_witness :
  SendOTPWithAction_path 12334566 "login" "hello"
  = "sms/12334566?action=login&action_message=hello"
  /\ SendOTPWithAction_path 12334566 "login" "" = "sms/12334566?action=login"
  /\ SendOTPWithAction_path 12334566 "" "" = "sms/12334566".
Proof.
  split; [|split].
  - destruct (SendOTPWithAction_request_path Mock.client 12334566 "login"
                "hello" (Mock.world [])) as (_ & _ & _ & Hboth).
    rewrite Hboth; [reflexivity | discriminate | discriminate].
  - destruct (SendOTPWithAction_request_path Mock.client 12334566 "login"
                "" (Mock.world [])) as (_ & _ & Haction & _).
    rewrite Haction; [reflexivity | discriminate | reflexivity].
  - destruct (SendOTPWithAction_request_path Mock.client 12334566 ""
                "" (Mock.world [])) as (_ & Hplain & _).
    rewrite Hplain; reflexivity.
Defined.

(** TestNewRequest: the path some/thing and a body with the one field
    hello=World; and the registration form of a user. *)
Lemma NewRequest_shape_witness :
  (exists req : Request,
     NewRequest Mock.client "GET" "some/thing" (BodyOf (Mock.mkHello "World"))
     = Ok req
     /\ req_URL req = "https://api.authy.com/protected/json/some/thing"
     /\ req_Body req = "hello=World"
     /\ Header_Get "X-Authy-API-Key" (req_Header req) = "verysecret")
  /\ (exists req : Request,
        NewRequest Mock.client "POST" "users/new"
          (BodyOf (mkAuthyUser "" "111111111" "61" false))
        = Ok req
        /\ req_Body req = "user%5Bcellphone%5D=111111111&user%5Bcountry_code%5D=61").
Proof.
  split.
  - edestruct (NewRequest_shape Mock.client "GET" "some/thing"
                 (BodyOf (Mock.mkHello "World")))
      as [(req & Hreq & _ & _ & Hurl & Hbody & _ & _ & _ & _ & Hkey) _];
      [reflexivity | reflexivity | reflexivity |].
    exists req. split; [exact Hreq|]. split; [exact Hurl|].
    split; [rewrite Hbody; reflexivity | exact Hkey].
  - edestruct (NewRequest_shape Mock.client "POST" "users/new"
                 (BodyOf (mkAuthyUser "" "111111111" "61" false)))
      as [(req & Hreq & _ & _ & _ & Hbody & _) _];
      [reflexivity | reflexivity | reflexivity |].
    exists req. split; [exact Hreq|]. rewrite Hbody. reflexivity.
Defined.

(** A path that parses and a body that serialises, with a method that
    is no HTTP token: [http.NewRequest] refuses it, and [NewRequest]
    returns its error and no request. *)
Lemma NewRequest_invalid_method :
  @url_Parse Mock.url "some/thing" = Ok "some/thing"
  /\ Body_Values (BodyOf (Mock.mkHello "World"))
     = Ok (Values_Add "hello" "World" ∅)
  /\ NewRequest Mock.client "GET /" "some/thing" (BodyOf (Mock.mkHello "World"))
     = Err ("net/http: invalid method " +:+ Mock.q +:+ "GET /" +:+ Mock.q).
Proof. split; [reflexivity|]. split; reflexivity. Defined.

(** A transport failure and an unreadable body: no error comes back,
    and the envelope is the zero-valued one. *)
Lemma GetAppInfo_discards_error_witness :
  (GetAppInfo Mock.client (Mock.world [Err "context deadline exceeded"])).1
  = (new_ResponseMessage, None)
  /\ (GetAppInfo Mock.client
        (Mock.world [Ok (mkResponse 200 (Mock.body_created,
                                         Some "unexpected EOF"))])).1
     = (new_ResponseMessage, None).
Proof.
  split.
  - destruct (GetAppInfo_discards_error Mock.client
                (Mock.world [Err "context deadline exceeded"]))
      as (_ & _ & Htransport & _).
    erewrite Htransport; reflexivity.
  - destruct (GetAppInfo_discards_error Mock.client
                (Mock.world [Ok (mkResponse 200 (Mock.body_created,
                                                 Some "unexpected EOF"))]))
      as (_ & _ & _ & Hread).
    erewrite Hread; reflexivity.
Defined.

(** ** Further properties: failures, effects and the shape of results *)

Section AuthyCoverage.
Context `{NetURL} `{NetHTTP}.
Context `{Unmarshal ResponseMessage} `{Unmarshal otpMessage}.

(** *** NewClient and NewRequest *)

(** X1. [NewClient] returns nil exactly when net/url rejects the base
    URL it composed; a client it returns keeps the app it was given, has
    a timeout of 20 seconds, and its base URL is the parse of
    [baseUrl] followed by [xml/] for the format "xml" and by [json/]
    otherwise. *)
Theorem NewClient_nil_iff (a : App) :
  let text := baseUrl +:+ (if decide (ApiFormat a = "xml") then "xml/" else "json/") in
  (NewClient a = None <-> exists err : error, url_Parse text = Err err)
  /\ (forall c : Client,
        NewClient a = Some c ->
        app c = a /\ Timeout (Client_http c) = 20
        /\ url_Parse text = Ok (baseURL c)).
Proof.
  cbv zeta. unfold NewClient.
  destruct (decide (ApiFormat a = "xml")) as [Hxml|Hother].
  - destruct (url_Parse (baseUrl +:+ "xml/")) as [u|e]; split.
    + split; [discriminate | intros [err Herr]; discriminate].
    + intros c [= <-]. auto.
    + split; [eauto | reflexivity].
    + discriminate.
  - destruct (url_Parse (baseUrl +:+ "json/")) as [u|e]; split.
    + split; [discriminate | intros [err Herr]; discriminate].
    + intros c [= <-]. auto.
    + split; [eauto | reflexivity].
    + discriminate.
Qed.

(** What a request from [NewRequest] is made of. *)
Lemma NewRequest_Ok_inv (c : Client) (method relPath : string) (body : Body)
    (req : Request) :
  NewRequest c method relPath body = Ok req ->
  exists (rel : URL) (out : Values),
    url_Parse relPath = Ok rel
    /\ Body_Values body = Ok out
    /\ http_request_check method
         (URL_String (ResolveReference (baseURL c) rel)) = None
    /\ req = mkRequest (default_method method)
               (URL_String (ResolveReference (baseURL c) rel))
               (Values_Encode out) (standard_headers (ApiSecret (app c))).
Proof.
  unfold NewRequest, http_NewRequest.
  destruct (url_Parse relPath) as [rel|e]; [|discriminate].
  destruct (Body_Values body) as [out|e]; [|discriminate].
  destruct (http_request_check method _) as [e|] eqn:Hcheck; [discriminate|].
  cbn [req_Header req_Method req_URL req_Body].
  rewrite standard_headers_added. intros [= <-].
  exists rel, out. auto.
Qed.

(** X2. [NewRequest] fails with [err] exactly when the relative path
    does not parse (whatever the body), or the path parses and the body
    does not serialise, or both are fine and net/http rejects the method
    or the resolved URL; the error is that of the first step that
    fails. *)
Theorem NewRequest_error_iff (c : Client) (method relPath : string)
    (body : Body) (err : error) :
  NewRequest c method relPath body = Err err
  <-> url_Parse relPath = Err err
      \/ (exists rel : URL,
            url_Parse relPath = Ok rel /\ Body_Values body = Err err)
      \/ (exists (rel : URL) (out : Values),
            url_Parse relPath = Ok rel /\ Body_Values body = Ok out
            /\ http_request_check method
                 (URL_String (ResolveReference (baseURL c) rel)) = Some err).
Proof.
  unfold NewRequest, http_NewRequest.
  destruct (url_Parse relPath) as [rel|e].
  - destruct (Body_Values body) as [out|e].
    + destruct (http_request_check method _) as [e|] eqn:Hcheck.
      * split.
        -- intros [= ->]. right. right. eauto.
        -- intros [?|[(rel' & [= <-] & ?)|(rel' & out' & [= <-] & ? & Hsome)]];
             [discriminate..|].
           rewrite Hcheck in Hsome. by injection Hsome as ->.
      * split; [discriminate|].
        intros [?|[(rel' & [= <-] & ?)|(rel' & out' & [= <-] & ? & Hsome)]];
          [discriminate..|].
        rewrite Hcheck in Hsome. discriminate.
    + split.
      * intros [= ->]. right. left. eauto.
      * intros [?|[(rel' & _ & [= ->])|(rel' & out' & _ & ? & _)]];
          [discriminate|reflexivity|discriminate].
  - split.
    + intros [= ->]. by left.
    + intros [[= ->]|[(rel' & ? & _)|(rel' & out' & ? & _)]];
        [reflexivity|discriminate..].
Qed.

(** *** Get and Post: when they fail, and what they send *)

(** Closes the direction of an error characterisation that starts from
    the cause, once the round trip [Hrt] is known. *)
Ltac exchange_back Hrt :=
  let Hu := fresh "Hu" in
  let req' := fresh "req'" in
  let Hr := fresh "Hr" in
  let Hcases := fresh "Hcases" in
  let Ht := fresh "Ht" in
  let Hb := fresh "Hb" in
  intros [Hu|(req' & Hr & Hcases)]; [congruence|];
  injection Hr as <-; rewrite Hrt in Hcases; simpl in Hcases;
  destruct Hcases as [Ht|(? & ? & Ht & Hb)]; congruence.

Lemma Post_error_keeps_resource {R : Type} `{Unmarshal R} (c : Client)
    (relPath : string) (body : Body) (resource : R) (w : World) (err : error) :
  (Post c relPath body resource w).1.2 = Some err ->
  (Post c relPath body resource w).1.1 = resource.
Proof.
  unfold Post, bind.
  destruct (NewRequest c "POST" relPath body) as [req|e]; [|done].
  destruct (Client_Do c req w) as [[resp|e] w']; [|done].
  destruct (ioutil_ReadAll (resp_Body resp)) as [data [e|]]; [done|].
  simpl. discriminate.
Qed.

(** X3. [Get] returns the error [err] exactly when the request cannot
    be built, or the transport fails, or the body cannot be read, each
    with that error; a response of any status whose body is read never
    gives an error.  Whenever [Get] returns an error the resource is as
    the caller passed it, and when the request cannot be built the world
    is untouched. *)
Theorem Get_error_iff {R : Type} `{Unmarshal R} (c : Client)
    (relPath : string) (resource : R) (w : World) (err : error) :
  ((Get c relPath resource w).1.2 = Some err
   <-> NewRequest c "GET" relPath BodyNil = Err err
       \/ exists req : Request,
            NewRequest c "GET" relPath BodyNil = Ok req
            /\ ((RoundTrip req (net w)).1 = Err err
                \/ exists (resp : Response) (data : string),
                     (RoundTrip req (net w)).1 = Ok resp
                     /\ resp_Body resp = (data, Some err)))
  /\ ((Get c relPath resource w).1.2 = Some err ->
      (Get c relPath resource w).1.1 = resource)
  /\ (NewRequest c "GET" relPath BodyNil = Err err ->
      (Get c relPath resource w).2 = w).
Proof.
  split; [|split].
  - unfold Get, bind, Client_Do, ioutil_ReadAll.
    destruct (NewRequest c "GET" relPath BodyNil) as [req|e].
    + destruct (RoundTrip req (net w)) as [[resp|e] n] eqn:Hrt; simpl.
      * destruct (resp_Body resp) as [data [e|]] eqn:Hbody; simpl.
        -- split; [|exchange_back Hrt].
           intros [= ->]. right. exists req. split; [done|]. right.
           exists resp, data. by rewrite Hrt.
        -- split; [discriminate | exchange_back Hrt].
      * split; [|exchange_back Hrt].
        intros [= ->]. right. exists req. split; [done|]. left.
        by rewrite Hrt.
    + simpl. split.
      * intros [= ->]. by left.
      * intros [Hu|(req' & Hr & _)]; congruence.
  - apply Get_error_keeps_resource.
  - intros Hreq. by rewrite (Get_unbuilt c relPath resource w err Hreq).
Qed.

(** X4. [Post] returns the error [err] exactly when the request cannot
    be built (the path does not parse, the body does not serialise, or
    net/http rejects it), or the transport fails, or the body cannot be
    read; whenever it returns an error the resource is as the caller
    passed it, and when the request cannot be built the world is
    untouched. *)
Theorem Post_error_iff {R : Type} `{Unmarshal R} (c : Client)
    (relPath : string) (body : Body) (resource : R) (w : World) (err : error) :
  ((Post c relPath body resource w).1.2 = Some err
   <-> NewRequest c "POST" relPath body = Err err
       \/ exists req : Request,
            NewRequest c "POST" relPath body = Ok req
            /\ ((RoundTrip req (net w)).1 = Err err
                \/ exists (resp : Response) (data : string),
                     (RoundTrip req (net w)).1 = Ok resp
                     /\ resp_Body resp = (data, Some err)))
  /\ ((Post c relPath body resource w).1.2 = Some err ->
      (Post c relPath body resource w).1.1 = resource)
  /\ (NewRequest c "POST" relPath body = Err err ->
      (Post c relPath body resource w).2 = w).
Proof.
  split; [|split].
  - unfold Post, bind, Client_Do, ioutil_ReadAll.
    destruct (NewRequest c "POST" relPath body) as [req|e].
    + destruct (RoundTrip req (net w)) as [[resp|e] n] eqn:Hrt; simpl.
      * destruct (resp_Body resp) as [data [e|]] eqn:Hbody; simpl.
        -- split; [|exchange_back Hrt].
           intros [= ->]. right. exists req. split; [done|]. right.
           exists resp, data. by rewrite Hrt.
        -- split; [discriminate | exchange_back Hrt].
      * split; [|exchange_back Hrt].
        intros [= ->]. right. exists req. split; [done|]. left.
        by rewrite Hrt.
    + simpl. split.
      * intros [= ->]. by left.
      * intros [Hu|(req' & Hr & _)]; congruence.
  - apply Post_error_keeps_resource.
  - intros Hreq. unfold Post. by rewrite Hreq.
Qed.

(** X5. [Get] and [Post] never look at the status code: two answers
    with the same body give the same result, whatever their statuses. *)
Theorem Get_Post_ignore_status {R : Type} `{Unmarshal R} (c : Client)
    (relPath : string) (body : Body) (resource : R) (w w' : World)
    (resp resp' : Response) (n n' : Net) :
  resp_Body resp = resp_Body resp' ->
  (forall req : Request,
     NewRequest c "GET" relPath BodyNil = Ok req ->
     RoundTrip req (net w) = (Ok resp, n) ->
     RoundTrip req (net w') = (Ok resp', n') ->
     (Get c relPath resource w).1 = (Get c relPath resource w').1)
  /\ (forall req : Request,
        NewRequest c "POST" relPath body = Ok req ->
        RoundTrip req (net w) = (Ok resp, n) ->
        RoundTrip req (net w') = (Ok resp', n') ->
        (Post c relPath body resource w).1 = (Post c relPath body resource w').1).
Proof.
  intros Hsame. split; intros req Hreq Hrt Hrt'.
  - unfold Get, bind, Client_Do, ioutil_ReadAll.
    rewrite Hreq, Hrt, Hrt', Hsame.
    by destruct (resp_Body resp') as [data [e|]].
  - unfold Post, bind, Client_Do, ioutil_ReadAll.
    rewrite Hreq, Hrt, Hrt', Hsame.
    by destruct (resp_Body resp') as [data [e|]].
Qed.

Lemma Get_at_most_one {R : Type} `{Unmarshal R} (c : Client)
    (relPath : string) (resource : R) (w : World) :
  at_most_one_request c "GET" w (Get c relPath resource w).2
  /\ logs (Get c relPath resource w).2 = logs w.
Proof.
  unfold Get, bind, Client_Do, ioutil_ReadAll, at_most_one_request.
  destruct (NewRequest c "GET" relPath BodyNil) as [req|e] eqn:Hreq;
    [|simpl; auto].
  destruct (NewRequest_Ok_inv _ _ _ _ _ Hreq) as (rel & out & _ & _ & _ & ->).
  match goal with |- context [RoundTrip ?r (net w)] => set (sent_req := r) end.
  destruct (RoundTrip sent_req (net w)) as [[resp|e] n] eqn:Hrt;
    [destruct (resp_Body resp) as [data [e|]]|];
    (split; [right; exists sent_req; rewrite Hrt; by simpl | reflexivity]).
Qed.

Lemma Post_at_most_one {R : Type} `{Unmarshal R} (c : Client)
    (relPath : string) (body : Body) (resource : R) (w : World) :
  at_most_one_request c "POST" w (Post c relPath body resource w).2
  /\ logs (Post c relPath body resource w).2 = logs w.
Proof.
  unfold Post, bind, Client_Do, ioutil_ReadAll, at_most_one_request.
  destruct (NewRequest c "POST" relPath body) as [req|e] eqn:Hreq;
    [|simpl; auto].
  destruct (NewRequest_Ok_inv _ _ _ _ _ Hreq) as (rel & out & _ & _ & _ & ->).
  match goal with |- context [RoundTrip ?r (net w)] => set (sent_req := r) end.
  destruct (RoundTrip sent_req (net w)) as [[resp|e] n] eqn:Hrt;
    [destruct (resp_Body resp) as [data [e|]]|];
    (split; [right; exists sent_req; rewrite Hrt; by simpl | reflexivity]).
Qed.

(** *** No retries, no stray requests, and where the log is written *)

Lemma CheckOTPToken_at_most_one (c : Client) (authyUserID : int64)
    (token : string) (w : World) :
  at_most_one_request c "GET" w (CheckOTPToken c authyUserID token w).2.
Proof.
  unfold CheckOTPToken, bind, Client_Do, log_Println, ioutil_ReadAll,
    at_most_one_request.
  destruct (decide (authyUserID = 0 \/ token = "")) as [Hempty|Hgiven];
    [simpl; auto|].
  destruct (NewRequest c "GET" _ BodyNil) as [req|e] eqn:Hreq; [|simpl; auto].
  destruct (NewRequest_Ok_inv _ _ _ _ _ Hreq) as (rel & out & _ & _ & _ & ->).
  match goal with |- context [RoundTrip ?r (net w)] => set (sent_req := r) end.
  right. exists sent_req.
  destruct (RoundTrip sent_req (net w)) as [[resp|e] n] eqn:Hrt; [|by simpl].
  destruct (decide (StatusCode resp <> 200)) as [Hstatus|Hstatus]; [by simpl|].
  destruct (resp_Body resp) as [data [e|]]; [by simpl|].
  destruct (json_Unmarshal data new_otpMessage) as [msg [e|]]; [by simpl|].
  by destruct (decide (otp_Success msg = "true" /\ otp_Token msg = "is valid")).
Qed.

(** X6. Every operation of the client makes at most one round trip, with
    no retry: after it, either nothing was sent, or exactly one request
    went out, a GET (a POST for [CreateUser] and [RemoveUser]) carrying
    the four standard headers with the configured API secret. *)
Theorem operations_send_at_most_one_request (c : Client) (w : World) :
  at_most_one_request c "GET" w (GetAppInfo c w).2
  /\ (forall au : AuthyUser,
        at_most_one_request c "POST" w (CreateUser c au w).2)
  /\ (forall id : int64,
        at_most_one_request c "POST" w (RemoveUser c id w).2)
  /\ (forall id : int64,
        at_most_one_request c "GET" w (UserStatus c id w).2)
  /\ (forall (id : int64) (action actionMessage : string),
        at_most_one_request c "GET" w
          (SendOTPWithAction c id action actionMessage w).2)
  /\ (forall id : int64, at_most_one_request c "GET" w (SendOTP c id w).2)
  /\ (forall (id : int64) (token : string),
        at_most_one_request c "GET" w (CheckOTPToken c id token w).2).
Proof.
  repeat split.
  - unfold GetAppInfo, bind.
    pose proof (Get_at_most_one c "app/details" new_ResponseMessage w) as [Hone _].
    by destruct (Get c "app/details" new_ResponseMessage w) as [r w'].
  - intros au. unfold CreateUser, bind.
    destruct (decide (Cellphone au = "" \/ CountryCode au = ""))
      as [Hempty|Hgiven]; [left; by simpl|].
    pose proof (Post_at_most_one c "users/new" (BodyOf au) new_ResponseMessage w)
      as [Hone _].
    destruct (Post c "users/new" (BodyOf au) new_ResponseMessage w)
      as [[resource [e|]] w']; [done|].
    by destruct (negb (Success resource)).
  - intros id. unfold RemoveUser, bind.
    pose proof (Post_at_most_one c ("users/" +:+ fmt.d id +:+ "/remove") BodyNil
                  new_ResponseMessage w) as [Hone _].
    destruct (Post c _ BodyNil new_ResponseMessage w) as [[resource [e|]] w'];
      [done|].
    by destruct (negb (Success resource)).
  - intros id. unfold UserStatus, bind.
    pose proof (Get_at_most_one c ("users/" +:+ fmt.d id +:+ "/status")
                  new_ResponseMessage w) as [Hone _].
    by destruct (Get c _ new_ResponseMessage w) as [[msg [e|]] w'].
  - intros id action actionMessage. unfold SendOTPWithAction, bind.
    pose proof (Get_at_most_one c (SendOTPWithAction_path id action actionMessage)
                  new_ResponseMessage w) as [Hone _].
    by destruct (Get c _ new_ResponseMessage w) as [[msg [e|]] w'].
  - intros id. unfold SendOTP, SendOTPWithAction, bind.
    pose proof (Get_at_most_one c (SendOTPWithAction_path id "" "")
                  new_ResponseMessage w) as [Hone _].
    by destruct (Get c _ new_ResponseMessage w) as [[msg [e|]] w'].
  - intros id token. apply CheckOTPToken_at_most_one.
Qed.


(** *** CheckOTPToken: what a granted token rests on, and how it fails *)

(** X8. [CheckOTPToken] returns true only with a nil error, for a
    non-zero id and a non-empty token, after a request that the provider
    answered with status 200 and a body that was read and decoded without
    error into success "true" and token "is valid". *)
Theorem CheckOTPToken_true_inv (c : Client) (authyUserID : int64)
    (token : string) (w : World) :
  (CheckOTPToken c authyUserID token w).1.1 = true ->
  (CheckOTPToken c authyUserID token w).1.2 = None
  /\ authyUserID <> 0 /\ token <> ""
  /\ exists (req : Request) (resp : Response) (n : Net) (data : string)
            (msg : otpMessage),
       NewRequest c "GET" ("verify/" +:+ token +:+ "/" +:+ fmt.d authyUserID)
         BodyNil = Ok req
       /\ RoundTrip req (net w) = (Ok resp, n)
       /\ StatusCode resp = 200
       /\ resp_Body resp = (data, None)
       /\ json_Unmarshal data new_otpMessage = (msg, None)
       /\ otp_Success msg = "true" /\ otp_Token msg = "is valid".
Proof.
  unfold CheckOTPToken, bind, Client_Do, log_Println, ioutil_ReadAll, fmt.s.
  destruct (decide (authyUserID = 0 \/ token = "")) as [Hempty|Hgiven];
    [discriminate|].
  destruct (NewRequest c "GET" _ BodyNil) as [req|e] eqn:Hreq; [|discriminate].
  destruct (RoundTrip req (net w)) as [[resp|e] n] eqn:Hrt; [|discriminate].
  destruct (decide (StatusCode resp <> 200)) as [Hstatus|Hstatus];
    [discriminate|].
  destruct (resp_Body resp) as [data [e|]] eqn:Hbody; [discriminate|].
  destruct (json_Unmarshal data new_otpMessage) as [msg [e|]] eqn:Hdec;
    [discriminate|].
  destruct (decide (otp_Success msg = "true" /\ otp_Token msg = "is valid"))
    as [[Hsuccess Htoken]|Hinvalid]; [|discriminate].
  intros _. simpl. split; [reflexivity|].
  split; [intros ->; apply Hgiven; by left|].
  split; [intros ->; apply Hgiven; by right|].
  exists req, resp, n, data, msg.
  repeat split; try assumption; try reflexivity.
  destruct (decide (StatusCode resp = 200)) as [H200|Hnot]; [exact H200|].
  contradiction.
Qed.

(** X9. [CheckOTPToken] with an id and a token, when no verdict can be
    had: a request that cannot be built fails with its error and leaves
    the world untouched; a transport error is returned as it is, with
    nothing logged; on a 200 whose body cannot be read the read error is
    returned and one line is logged. *)
Theorem CheckOTPToken_failures (c : Client) (authyUserID : int64)
    (token : string) (w : World) :
  authyUserID <> 0 ->
  token <> "" ->
  let path := "verify/" +:+ token +:+ "/" +:+ fmt.d authyUserID in
  (forall err : error,
     NewRequest c "GET" path BodyNil = Err err ->
     CheckOTPToken c authyUserID token w = ((false, Some err), w))
  /\ (forall (req : Request) (err : error) (n : Net),
        NewRequest c "GET" path BodyNil = Ok req ->
        RoundTrip req (net w) = (Err err, n) ->
        CheckOTPToken c authyUserID token w
        = ((false, Some err), after_send w req n))
  /\ (forall (req : Request) (resp : Response) (n : Net) (data : string)
             (err : error),
        NewRequest c "GET" path BodyNil = Ok req ->
        RoundTrip req (net w) = (Ok resp, n) ->
        StatusCode resp = 200 ->
        resp_Body resp = (data, Some err) ->
        CheckOTPToken c authyUserID token w
        = ((false, Some err),
           mkWorld n (sent w ++ [req])%list
             (logs w ++ ["authy-go CheckOTPToken: malformed response"])%list)).
Proof.
  intros Hid Htoken. cbv zeta.
  unfold CheckOTPToken, bind, Client_Do, log_Println, ioutil_ReadAll, fmt.s.
  destruct (decide (authyUserID = 0 \/ token = "")) as [[?|?]|_]; [done..|].
  split; [|split].
  - intros err Hreq. by rewrite Hreq.
  - intros req err n Hreq Hrt. by rewrite Hreq, Hrt.
  - intros req resp n data err Hreq Hrt H200 Hbody.
    rewrite Hreq, Hrt.
    destruct (decide (StatusCode resp <> 200)) as [Hstatus|_]; [done|].
    by rewrite Hbody.
Qed.

(** *** CreateUser and RemoveUser: every way out *)

(** X10. [CreateUser] returns a nil error exactly when the cellphone and
    the country code are given, [Post] returned no error and the envelope
    says success; the id is then the envelope's user id.  Every error
    comes with the id 0, and an error of [Post] is returned as it is. *)
Theorem CreateUser_results (c : Client) (au : AuthyUser) (w : World) :
  let r := (CreateUser c au w).1 in
  let p := (Post c "users/new" (BodyOf au) new_ResponseMessage w).1 in
  (r.2 = None
   <-> Cellphone au <> "" /\ CountryCode au <> ""
       /\ p.2 = None /\ Success p.1 = true)
  /\ (r.2 = None -> r.1 = user_ID (User p.1))
  /\ (forall err : error, r.2 = Some err -> r.1 = 0)
  /\ (forall err : error,
        Cellphone au <> "" -> CountryCode au <> "" ->
        p.2 = Some err -> r = (0, Some err)).
Proof.
  cbv zeta. unfold CreateUser, bind.
  destruct (decide (Cellphone au = "" \/ CountryCode au = ""))
    as [Hempty|Hgiven].
  - simpl. split; [|split; [|split]].
    + split; [discriminate|].
      intros (Hphone & Hcountry & _). destruct Hempty; contradiction.
    + discriminate.
    + reflexivity.
    + intros err Hphone Hcountry. destruct Hempty; contradiction.
  - assert (Cellphone au <> "" /\ CountryCode au <> "") as [Hphone Hcountry].
    { split; intros Hnone; apply Hgiven; [by left | by right]. }
    destruct (Post c "users/new" (BodyOf au) new_ResponseMessage w)
      as [[resource [e|]] w']; simpl.
    + split; [|split; [|split]].
      * split; [discriminate | intros (_ & _ & Hnil & _); discriminate].
      * discriminate.
      * reflexivity.
      * by intros err _ _ [= ->].
    + destruct (Success resource) eqn:Hsuccess; simpl.
      * split; [|split; [|split]]; [|reflexivity|discriminate|discriminate].
        split; [intros _; auto | reflexivity].
      * split; [|split; [|split]]; [|discriminate|reflexivity|discriminate].
        split; [discriminate | intros (_ & _ & _ & Htrue); discriminate].
Qed.

(** X11. [RemoveUser] returns nil exactly when [Post] returned no error
    and the envelope says success; an error of [Post] is returned as it
    is, before the envelope is looked at. *)
Theorem RemoveUser_results (c : Client) (authyUserID : int64) (w : World) :
  let r := (RemoveUser c authyUserID w).1 in
  let p := (Post c ("users/" +:+ fmt.d authyUserID +:+ "/remove") BodyNil
              new_ResponseMessage w).1 in
  (r = None <-> p.2 = None /\ Success p.1 = true)
  /\ (forall err : error, p.2 = Some err -> r = Some err).
Proof.
  cbv zeta. unfold RemoveUser, bind.
  destruct (Post c _ BodyNil new_ResponseMessage w)
    as [[resource [e|]] w']; simpl.
  - split; [|by intros err [= ->]].
    split; [discriminate | intros [Hnil _]; discriminate].
  - split; [|discriminate].
    destruct (Success resource); simpl; split; try done.
    intros [_ Htrue]. discriminate.
Qed.

(** *** UserStatus and SendOTP: the envelope comes back as it is *)

(** X12. [UserStatus] never judges the envelope: once the request is
    built, the transport has answered (with any status) and the body is
    read, it returns the decoded envelope with a nil error, also when the
    envelope says failure.  When [Get] fails it returns no envelope and
    the error of [Get]. *)
Theorem UserStatus_envelope (c : Client) (authyUserID : int64) (w : World) :
  let path := "users/" +:+ fmt.d authyUserID +:+ "/status" in
  (forall (req : Request) (resp : Response) (n : Net) (data : string),
     NewRequest c "GET" path BodyNil = Ok req ->
     RoundTrip req (net w) = (Ok resp, n) ->
     resp_Body resp = (data, None) ->
     UserStatus c authyUserID w
     = ((Some (json_Unmarshal data new_ResponseMessage).1, None),
        after_send w req n))
  /\ (forall err : error,
        (Get c path new_ResponseMessage w).1.2 = Some err ->
        (UserStatus c authyUserID w).1 = (None, Some err))
  /\ (is_Some (UserStatus c authyUserID w).1.1
      <-> (UserStatus c authyUserID w).1.2 = None).
Proof.
  cbv zeta. unfold UserStatus, bind. split; [|split].
  - intros req resp n data Hreq Hrt Hbody.
    by rewrite (Get_read c _ new_ResponseMessage w req resp n data Hreq Hrt Hbody).
  - intros err.
    destruct (Get c _ new_ResponseMessage w) as [[msg [e|]] w']; simpl;
      [by intros [= ->] | discriminate].
  - destruct (Get c _ new_ResponseMessage w) as [[msg [e|]] w']; simpl.
    + split; [intros [x Hx]; discriminate | discriminate].
    + split; [reflexivity | eauto].
Qed.

(** X13. [SendOTP] requests the path [sms/{id}] and hands back what
    [Get] gives.  The envelope it returns says success only if no error
    is returned and the provider's body, read in full, decoded into an
    envelope that says success; with an error the envelope is the
    zero-valued one. *)
Theorem SendOTP_success_inv (c : Client) (authyUserID : int64) (w : World) :
  let path := "sms/" +:+ fmt.d authyUserID in
  SendOTP c authyUserID w = Get c path new_ResponseMessage w
  /\ (forall err : error,
        (SendOTP c authyUserID w).1.2 = Some err ->
        (SendOTP c authyUserID w).1.1 = new_ResponseMessage)
  /\ (Success (SendOTP c authyUserID w).1.1 = true ->
      (SendOTP c authyUserID w).1.2 = None
      /\ exists (req : Request) (resp : Response) (n : Net) (data : string),
           NewRequest c "GET" path BodyNil = Ok req
           /\ RoundTrip req (net w) = (Ok resp, n)
           /\ resp_Body resp = (data, None)
           /\ Success (json_Unmarshal data new_ResponseMessage).1 = true).
Proof.
  cbv zeta.
  assert (SendOTP c authyUserID w
          = Get c ("sms/" +:+ fmt.d authyUserID) new_ResponseMessage w) as ->.
  { unfold SendOTP, SendOTPWithAction, SendOTPWithAction_path, bind.
    destruct (decide ("" <> "")) as [Hne|_]; [done|].
    by destruct (Get c _ new_ResponseMessage w) as [[msg [e|]] w']. }
  split; [reflexivity|]. split.
  - apply Get_error_keeps_resource.
  - unfold Get, bind, Client_Do, ioutil_ReadAll.
    destruct (NewRequest c "GET" _ BodyNil) as [req|e]; [|discriminate].
    destruct (RoundTrip req (net w)) as [[resp|e] n] eqn:Hrt; [|discriminate].
    destruct (resp_Body resp) as [data [e|]] eqn:Hbody; [discriminate|].
    simpl. intros Hsuccess. split; [reflexivity|].
    exists req, resp, n, data. auto.
Qed.

(** *** What CreateUser puts on the wire *)

Lemma NewRequest_build (c : Client) (method relPath : string) (body : Body)
    (rel : URL) (out : Values) :
  url_Parse relPath = Ok rel ->
  Body_Values body = Ok out ->
  http_request_check method (URL_String (ResolveReference (baseURL c) rel)) = None ->
  NewRequest c method relPath body
  = Ok (mkRequest (default_method method)
          (URL_String (ResolveReference (baseURL c) rel))
          (Values_Encode out) (standard_headers (ApiSecret (app c)))).
Proof.
  intros Hrel Hout Hcheck. unfold NewRequest, http_NewRequest.
  rewrite Hrel, Hout, Hcheck. cbn [req_Header req_Method req_URL req_Body].
  by rewrite standard_headers_added.
Qed.

(** X14. For a user with a cellphone and a country code, where the path
    users/new parses and net/http accepts the request, [CreateUser] sends
    exactly one request: a POST to users/new under the base URL, whose
    body is the encoded form of the user (cellphone and country code
    always in it, both non-empty), with the four standard headers. *)
Theorem CreateUser_request (c : Client) (au : AuthyUser) (w : World) (rel : URL) :
  Cellphone au <> "" ->
  CountryCode au <> "" ->
  url_Parse "users/new" = Ok rel ->
  http_request_check "POST" (URL_String (ResolveReference (baseURL c) rel)) = None ->
  sent (CreateUser c au w).2
  = (sent w ++ [mkRequest "POST" (URL_String (ResolveReference (baseURL c) rel))
                  (Values_Encode (AuthyUser_Values au))
                  (standard_headers (ApiSecret (app c)))])%list
  /\ (exists phone country : string,
        AuthyUser_Values au !! "user[cellphone]" = Some [phone]
        /\ AuthyUser_Values au !! "user[country_code]" = Some [country]
        /\ phone <> "" /\ country <> "").
Proof.
  intros Hphone Hcountry Hrel Hcheck. split.
  - unfold CreateUser, bind.
    destruct (decide (Cellphone au = "" \/ CountryCode au = ""))
      as [[?|?]|_]; [done..|].
    unfold Post, bind, Client_Do, ioutil_ReadAll.
    rewrite (NewRequest_build c "POST" "users/new" (BodyOf au) rel
               (AuthyUser_Values au)); [|exact Hrel|reflexivity|exact Hcheck].
    destruct (RoundTrip _ (net w)) as [[resp|e] n]; [|done].
    destruct (resp_Body resp) as [data [e|]]; [done|]. simpl.
    by destruct (negb (Success (json_Unmarshal data new_ResponseMessage).1)).
  - destruct (AuthyUser_Values_lookup au) as (Hp & Hc & _).
    exists (Cellphone au), (CountryCode au). auto.
Qed.

(** *** Endpoints of distinct users *)

Lemma length_append (s t : string) :
  String.length (s +:+ t) = (String.length s + String.length t)%nat.
Proof.
  induction s as [|a s IH]; [reflexivity|].
  change (S (String.length (s +:+ t))
          = S (String.length s + String.length t)%nat).
  by rewrite IH.
Qed.

Lemma append_inj_r (t s1 s2 : string) : s1 +:+ t = s2 +:+ t -> s1 = s2.
Proof.
  revert s2. induction s1 as [|a s1 IH]; intros [|b s2] Heq.
  - reflexivity.
  - apply (f_equal String.length) in Heq.
    change (String b s2 +:+ t) with (String b (s2 +:+ t)) in Heq.
    change ("" +:+ t) with t in Heq. simpl in Heq.
    rewrite length_append in Heq. lia.
  - apply (f_equal String.length) in Heq.
    change (String a s1 +:+ t) with (String a (s1 +:+ t)) in Heq.
    change ("" +:+ t) with t in Heq. simpl in Heq.
    rewrite length_append in Heq. lia.
  - change (String a (s1 +:+ t) = String b (s2 +:+ t)) in Heq.
    injection Heq as -> Htail. f_equal. by apply IH.
Qed.

(** X15. The paths of the per-user endpoints tell users apart: two ids
    with the same removal path, the same status path, the same SMS path
    (with the same action and message) or the same verification path for
    one token are the same id. *)
Theorem endpoint_paths_inj (a b : int64) :
  ("users/" +:+ fmt.d a +:+ "/remove" = "users/" +:+ fmt.d b +:+ "/remove"
   -> a = b)
  /\ ("users/" +:+ fmt.d a +:+ "/status" = "users/" +:+ fmt.d b +:+ "/status"
      -> a = b)
  /\ (forall action actionMessage : string,
        SendOTPWithAction_path a action actionMessage
        = SendOTPWithAction_path b action actionMessage -> a = b)
  /\ (forall token : string,
        "verify/" +:+ fmt.s token +:+ "/" +:+ fmt.d a
        = "verify/" +:+ fmt.s token +:+ "/" +:+ fmt.d b -> a = b).
Proof.
  unfold fmt.d, fmt.s. split; [|split; [|split]].
  - intros Heq. apply (inj (String.app "users/")) in Heq.
    apply append_inj_r in Heq. by apply (inj pretty).
  - intros Heq. apply (inj (String.app "users/")) in Heq.
    apply append_inj_r in Heq. by apply (inj pretty).
  - intros action actionMessage. unfold SendOTPWithAction_path, fmt.d, fmt.s.
    destruct (decide (action <> "")) as [Haction|Haction].
    + destruct (decide (actionMessage <> "")) as [Hmessage|Hmessage];
        intros Heq.
      * apply append_inj_r in Heq. apply append_inj_r in Heq.
        apply (inj (String.app "sms/")) in Heq. by apply (inj pretty).
      * apply append_inj_r in Heq.
        apply (inj (String.app "sms/")) in Heq. by apply (inj pretty).
    + intros Heq. apply (inj (String.app "sms/")) in Heq. by apply (inj pretty).
  - intros token Heq. apply (inj (String.app "verify/")) in Heq.
    apply (inj (String.app token)) in Heq.
    apply (inj (String.app "/")) in Heq. by apply (inj pretty).
Qed.

End AuthyCoverage.

(** ** The further properties on the test double *)

(** TestSendOTP and TestCreateUser serve 401 and 201: the status makes
    no difference to what [Get] and [Post] return. *)
Lemma Get_Post_ignore_status_witness :
  (Get Mock.client "sms/12334566" new_ResponseMessage
     (Mock.world [Ok (mkResponse 401 (Mock.body_created, None))])).1
  = (Get Mock.client "sms/12334566" new_ResponseMessage
       (Mock.world [Ok (mkResponse 200 (Mock.body_created, None))])).1
  /\ Success
       (Get Mock.client "sms/12334566" new_ResponseMessage
          (Mock.world [Ok (mkResponse 401 (Mock.body_created, None))])).1.1
     = true.
Proof.
  split; [|reflexivity].
  edestruct (Get_Post_ignore_status Mock.client "sms/12334566" BodyNil
               new_ResponseMessage
               (Mock.world [Ok (mkResponse 401 (Mock.body_created, None))])
               (Mock.world [Ok (mkResponse 200 (Mock.body_created, None))])
               (mkResponse 401 (Mock.body_created, None))
               (mkResponse 200 (Mock.body_created, None)) [] [])
    as [Hget _]; [reflexivity|].
  eapply Hget; reflexivity.
Defined.

(** The first case of TestCheckOTPToken grants the token, and so comes
    with a nil error. *)
Lemma CheckOTPToken_true_inv_witness :
  (CheckOTPToken Mock.client 1234567 "atokenforyou"
     (Mock.world [Ok (mkResponse 200 (Mock.body_valid, None))])).1.1 = true
  /\ (CheckOTPToken Mock.client 1234567 "atokenforyou"
        (Mock.world [Ok (mkResponse 200 (Mock.body_valid, None))])).1.2 = None.
Proof.
  split; [reflexivity|].
  apply (CheckOTPToken_true_inv Mock.client 1234567 "atokenforyou"
           (Mock.world [Ok (mkResponse 200 (Mock.body_valid, None))])).
  reflexivity.
Defined.

(** A transport that times out, and a body that breaks off. *)
Lemma CheckOTPToken_failures_witness :
  (1234567 <> 0 /\ "atokenforyou" <> "")
  /\ (CheckOTPToken Mock.client 1234567 "atokenforyou"
        (Mock.world [Err "context deadline exceeded"])).1
     = (false, Some "context deadline exceeded")
  /\ (CheckOTPToken Mock.client 1234567 "atokenforyou"
        (Mock.world [Ok (mkResponse 200 (Mock.body_valid,
                                         Some "unexpected EOF"))])).1
     = (false, Some "unexpected EOF")
  /\ logs (CheckOTPToken Mock.client 1234567 "atokenforyou"
             (Mock.world [Ok (mkResponse 200 (Mock.body_valid,
                                              Some "unexpected EOF"))])).2
     = ["authy-go CheckOTPToken: malformed response"].
Proof.
  split; [split; discriminate|].
  destruct (CheckOTPToken_failures Mock.client 1234567 "atokenforyou"
              (Mock.world [Err "context deadline exceeded"]))
    as (_ & Htransport & _); [discriminate..|].
  destruct (CheckOTPToken_failures Mock.client 1234567 "atokenforyou"
              (Mock.world [Ok (mkResponse 200 (Mock.body_valid,
                                               Some "unexpected EOF"))]))
    as (_ & _ & Hread); [discriminate..|].
  split; [|split].
  - erewrite Htransport; reflexivity.
  - erewrite Hread; reflexivity.
  - erewrite Hread; reflexivity.
Defined.

(** The first user of TestCreateUser: one POST, with the form of the
    user as its body. *)
Lemma CreateUser_request_witness :
  (Cellphone (mkAuthyUser "" "111111111" "61" false) <> ""
   /\ CountryCode (mkAuthyUser "" "111111111" "61" false) <> "")
  /\ sent (CreateUser Mock.client (mkAuthyUser "" "111111111" "61" false)
             (Mock.world [Ok (mkResponse 201 (Mock.body_created, None))])).2
     = [mkRequest "POST" "https://api.authy.com/protected/json/users/new"
          "user%5Bcellphone%5D=111111111&user%5Bcountry_code%5D=61"
          (standard_headers "verysecret")].
Proof.
  split; [split; discriminate|].
  edestruct (CreateUser_request Mock.client
               (mkAuthyUser "" "111111111" "61" false)
               (Mock.world [Ok (mkResponse 201 (Mock.body_created, None))]))
    as [Hsent _]; [discriminate | discriminate | reflexivity | reflexivity |].
  rewrite Hsent. reflexivity.
Defined.
